(** * Project-management tools of the Basic Memory MCP server

    A shallow embedding of [src/basic_memory/mcp/tools/project_management.py]:
    the five tool handlers [list_memory_projects], [switch_project],
    [get_current_project], [create_memory_project] and [delete_project],
    written in a state-and-exception monad over an explicit [World] (the
    session pointer, the process environment, the local configuration, the
    backend, the requests issued so far and the log).

    Python [str] values are Rocq strings read as UTF-8 bytes: equality,
    concatenation and [join] are the same on both sides.

    Free names of the module.  The file imports [os], [client], [mcp],
    [call_get], [call_post], [call_delete], the three schema classes of
    [project_info] and [generate_permalink].  Its functions also read eight
    names that no statement of the file binds.  Python looks a free name up
    in the global namespace of the module when the line that reads it runs,
    and raises [NameError] when the name is not there.
    - [session], [logger], [get_project_config], [add_project_metadata],
      [dedent] and [ProjectInfoResponse] name objects of sibling modules and
      of the standard library.  The handlers that read them take the
      namespace as their first argument and look each name up where the
      source reads it; [shipped] is the namespace the imports of the file
      leave, in which none of the six is bound.
    - [current] (line 64) and [matching_project] (line 302) are plain values
      that only a statement of the function itself could assign.  None does:
      reading either raises [NameError]. *)

From Stdlib Require Import String Ascii List ZArith NArith Bool DecimalString Lia.
Import ListNotations.
Open Scope string_scope.

(** ** Text helpers *)

(** The characters a Python literal escapes. *)
Definition nl : string := String (ascii_of_nat 10) EmptyString.
Definition dq : string := String (ascii_of_nat 34) EmptyString.

(** The two non-ASCII marks of the result texts. *)
Definition check_mark : string := "✓".
Definition bullet : string := "•".

(** [sep.join(xs)]. *)
Definition join (sep : string) (xs : list string) : string := String.concat sep xs.

(** [str(n)] of a Python [int], as an f-string renders it. *)
Definition str_of_int (n : Z) : string := NilZero.string_of_int (Z.to_int n).

(** [urllib.parse.quote(s, safe=EmptyString)]: every byte of the UTF-8 text
    outside letters, digits and [_.-~] becomes [%XX], in upper-case hex. *)
Definition always_safe (c : ascii) : bool :=
  let n := N_of_ascii c in
  (((65 <=? n) && (n <=? 90)) || ((97 <=? n) && (n <=? 122)) ||
   ((48 <=? n) && (n <=? 57)) ||
   (n =? 95) || (n =? 46) || (n =? 45) || (n =? 126))%N.

Definition hex_digit (n : N) : ascii :=
  ascii_of_N (if (n <? 10)%N then 48 + n else 55 + n).

Fixpoint quote (s : string) : string :=
  match s with
  | EmptyString => EmptyString
  | String c rest =>
      if always_safe c then String c (quote rest)
      else
        let n := N_of_ascii c in
        String "%" (String (hex_digit (n / 16)) (String (hex_digit (n mod 16)) (quote rest)))
  end.

(** ** Exceptions and the handler monad *)

(** The exceptions that reach the handlers.  All three are subclasses of
    [Exception], so an [except Exception] clause catches each of them. *)
Inductive PyExc : Type :=
| NameError (name : string)
| ValueError (msg : string)
| OtherException (msg : string).

(** [str(e)]. *)
Definition str_of_exc (e : PyExc) : string :=
  match e with
  | NameError name => "name '" ++ name ++ "' is not defined"
  | ValueError msg => msg
  | OtherException msg => msg
  end.

Inductive Outcome (A : Type) : Type :=
| Returned (a : A)
| Raised (e : PyExc).
Arguments Returned {A} a.
Arguments Raised {A} e.

(** A computation over a state [S] that returns or raises. *)
Definition M (S A : Type) : Type := S -> Outcome A * S.

Definition ret {S A} (a : A) : M S A := fun s => (Returned a, s).

Definition raise {S A} (e : PyExc) : M S A := fun s => (Raised e, s).

Definition bind {S A B} (m : M S A) (k : A -> M S B) : M S B :=
  fun s =>
    match m s with
    | (Returned a, s') => k a s'
    | (Raised e, s') => (Raised e, s')
    end.

(** [try: body / except Exception as e: handler e]. *)
Definition try_except {S A} (body : M S A) (handler : PyExc -> M S A) : M S A :=
  fun s =>
    match body s with
    | (Returned a, s') => (Returned a, s')
    | (Raised e, s') => handler e s'
    end.

(** [if flag: body]. *)
Definition when {S} (flag : bool) (body : M S unit) : M S unit :=
  if flag then body else ret tt.

(** Evaluating a name that no statement binds. *)
Definition unbound_name {S A} (name : string) : M S A := raise (NameError name).

(** The global namespace of the module, as far as the six names go that the
    file reads and does not import: which of them are bound. *)
Definition Namespace : Type := string -> bool.

(** The namespace of the module as shipped: its imports bind none of them. *)
Definition shipped : Namespace := fun _ => false.


(** Reading the global [name]: [NameError] when the namespace does not bind
    it. *)
Definition load_global {S} (g : Namespace) (name : string) : M S unit :=
  if g name then ret tt else raise (NameError name).

(** A mutable local variable of a function body: the body runs over the state
    paired with the variable's value, so that an [except] clause reads the
    value the variable holds when the exception is raised. *)
Definition with_local {S L A} (init : L) (body : M (S * L) A) : M S A :=
  fun s => let '(o, (s', _)) := body (s, init) in (o, s').

Definition lift {S L A} (m : M S A) : M (S * L) A :=
  fun sl => let '(o, s') := m (fst sl) in (o, (s', snd sl)).

Definition read_local {S L} : M (S * L) L := fun sl => (Returned (snd sl), sl).

Definition assign_local {S L} (v : L) : M (S * L) unit :=
  fun sl => (Returned tt, (fst sl, v)).

Declare Scope py_scope.
Delimit Scope py_scope with py.
Notation "x <- m ;; k" := (bind m (fun x => k))
  (at level 61, m at next level, right associativity) : py_scope.
Notation "m ;; k" := (bind m (fun _ => k))
  (at level 61, right associativity) : py_scope.
Open Scope py_scope.

(** ** Data model *)

(** Modelled from the spec: the schema classes of
    [basic_memory.schemas.project_info], which no file under src/ defines.
    A project record is [{name, path, permalink}]; the body of a creation
    request is [{name, path, set_default}]; a status response is
    [{message, new_project?, old_project?}]; the statistics are
    [{total_entities, total_observations, total_relations}]. *)
Module ProjectItem.
Record t : Type := mk { name : string; path : string; permalink : string }.
End ProjectItem.

Module ProjectList.
Record t : Type := mk { projects : list ProjectItem.t }.
End ProjectList.

Module ProjectInfoRequest.
Record t : Type := mk { name : string; path : string; set_default : bool }.
End ProjectInfoRequest.

Module ProjectStatusResponse.
Record t : Type := mk {
  message : string;
  new_project : option ProjectItem.t;
  old_project : option ProjectItem.t }.
End ProjectStatusResponse.

Record ProjectStatistics : Type := mkStatistics {
  total_entities : Z;
  total_observations : Z;
  total_relations : Z }.

Module ProjectInfoResponse.
Record t : Type := mk { statistics : ProjectStatistics }.
End ProjectInfoResponse.

(** What [get_project_config] returns; the handlers read its [project_url]. *)
Record ProjectConfig : Type := mkConfig { project_url : string }.

(** A request to the Remote Project Directory: [call_get(client, url, params)],
    [call_post(client, url, json)] and [call_delete(client, url)]. *)
Inductive Request : Type :=
| GET (url : string) (params : list (string * string))
| POST (url : string) (json : ProjectInfoRequest.t)
| DELETE (url : string).

(** The body of a response, [response.json()], by the schema it fits. *)
Inductive Json : Type :=
| ProjectListJson (body : ProjectList.t)
| ProjectInfoJson (body : ProjectInfoResponse.t)
| ProjectStatusJson (body : ProjectStatusResponse.t)
| OtherJson.

Inductive Level : Type := WARNING | ERROR.

(** Everything a handler reads or changes.
    - [session_current_project] is the Session State;
    - [environ] is [os.environ];
    - [project_configs] is the local configuration [get_project_config] reads;
    - [backend] answers a request or fails it;
    - [requests] are the network calls issued so far, oldest first;
    - [log] and [notices] collect [logger] and [Context.info] output. *)
Record World : Type := mkWorld {
  session_current_project : string;
  environ : string -> option string;
  project_configs : string -> PyExc + ProjectConfig;
  backend : Request -> PyExc + Json;
  requests : list Request;
  log : list (Level * string);
  notices : list string }.

Definition set_session (v : string) (w : World) : World :=
  mkWorld v (environ w) (project_configs w) (backend w) (requests w) (log w) (notices w).

Definition add_request (r : Request) (w : World) : World :=
  mkWorld (session_current_project w) (environ w) (project_configs w) (backend w)
          (requests w ++ [r]) (log w) (notices w).

Definition add_log (l : Level) (msg : string) (w : World) : World :=
  mkWorld (session_current_project w) (environ w) (project_configs w) (backend w)
          (requests w) (log w ++ [(l, msg)]) (notices w).

Definition add_notice (msg : string) (w : World) : World :=
  mkWorld (session_current_project w) (environ w) (project_configs w) (backend w)
          (requests w) (log w) (notices w ++ [msg]).

(** ** Collaborators *)

(** Modelled from the spec: the [session] object, which no file under src/
    defines.  Session State is a single field [current_project]; the contract
    is [get_current_project() -> string] and [set_current_project(name)], with
    no validation at set time. *)
Module session.
Definition get_current_project : M World string :=
  fun w => (Returned (session_current_project w), w).
Definition set_current_project (project_name : string) : M World unit :=
  fun w => (Returned tt, set_session project_name w).
End session.

(** [logger.warning(msg)] and [logger.error(msg)]. *)
Module logger.
Definition warning (msg : string) : M World unit :=
  fun w => (Returned tt, add_log WARNING msg w).
Definition error (msg : string) : M World unit :=
  fun w => (Returned tt, add_log ERROR msg w).
End logger.

(** [await context.info(msg)]. *)
Definition Context_info (msg : string) : M World unit :=
  fun w => (Returned tt, add_notice msg w).

(** [os.environ.get(key)]. *)
Definition os_environ_get (key : string) : M World (option string) :=
  fun w => (Returned (environ w key), w).

(** The value of [constrained_project] when [if constrained_project:] takes its
    branch: the variable is set and not the empty string. *)
Definition truthy (v : option string) : option string :=
  match v with
  | Some (String c rest) => Some (String c rest)
  | _ => None
  end.

(** [get_project_config(name)], which raises for a name the local
    configuration does not hold. *)
Definition get_project_config (project_name : string) : M World ProjectConfig :=
  fun w =>
    match project_configs w project_name with
    | inl e => (Raised e, w)
    | inr c => (Returned c, w)
    end.

(** A network call: the request is issued, then answered or failed. *)
Definition call (r : Request) : M World Json :=
  fun w =>
    match backend w r with
    | inl e => (Raised e, add_request r w)
    | inr j => (Returned j, add_request r w)
    end.

Definition call_get (url : string) (params : list (string * string)) : M World Json :=
  call (GET url params).
Definition call_post (url : string) (json : ProjectInfoRequest.t) : M World Json :=
  call (POST url json).
Definition call_delete (url : string) : M World Json :=
  call (DELETE url).

(** [Schema.model_validate(response.json())]. *)
Definition ProjectList_model_validate {S} (j : Json) : M S ProjectList.t :=
  match j with
  | ProjectListJson body => ret body
  | _ => raise (OtherException "validation error for ProjectList")
  end.

Definition ProjectInfoResponse_model_validate {S} (j : Json) : M S ProjectInfoResponse.t :=
  match j with
  | ProjectInfoJson body => ret body
  | _ => raise (OtherException "validation error for ProjectInfoResponse")
  end.

Definition ProjectStatusResponse_model_validate {S} (j : Json) : M S ProjectStatusResponse.t :=
  match j with
  | ProjectStatusJson body => ret body
  | _ => raise (OtherException "validation error for ProjectStatusResponse")
  end.

(** The functions of other modules that the handlers call on text:
    [str.lower], [basic_memory.utils.generate_permalink],
    [add_project_metadata], [textwrap.dedent] and [str.strip].  Their code is
    not under src/; the handlers are embedded over any implementation. *)
Class Library : Type := {
  lower : string -> string;
  generate_permalink : string -> string;
  add_project_metadata : string -> string -> string;
  dedent : string -> string;
  strip : string -> string }.

(** ** The tool handlers *)

Section Tools.
Context {Lib : Library}.

(** [list_memory_projects], lines 21-64.  The call of line 64 evaluates its
    callee [add_project_metadata] first, then its arguments [result] and
    [current]; [current] is a name that no import of the module and no
    statement of the function binds. *)
Definition list_memory_projects (g : Namespace) (context : bool) : M World string :=
  when context (Context_info "Listing all available projects") ;;
  constrained_project <- os_environ_get "BASIC_MEMORY_MCP_PROJECT" ;;
  response <- call_get "/projects/projects" [] ;;
  project_list <- ProjectList_model_validate response ;;
  let result :=
    match truthy constrained_project with
    | Some constrained_project =>
        let result := "Project: " ++ constrained_project ++ nl ++ nl in
        let result := result ++ "Note: This MCP server is constrained to a single project." ++ nl in
        result ++ "All operations will automatically use this project."
    | None =>
        fold_left
          (fun result project => result ++ bullet ++ " " ++ ProjectItem.name project ++ nl)
          (ProjectList.projects project_list)
          ("Available projects:" ++ nl)
    end in
  load_global g "add_project_metadata" ;;
  current <- unbound_name "current" ;;
  ret (add_project_metadata result current).

(** The loop of lines 94-98: the first project whose lower-cased name is the
    lower-cased input. *)
Fixpoint switch_project_lookup (project_name : string) (projects : list ProjectItem.t)
  : option ProjectItem.t :=
  match projects with
  | [] => None
  | p :: rest =>
      if lower (ProjectItem.name p) =? lower project_name then Some p
      else switch_project_lookup project_name rest
  end.

(** The text of lines 141-161, before [dedent] and [strip]. *)
Definition switch_failed_text (project_name : string) (e : PyExc) (current_project : string)
  : string :=
  join nl
    [ EmptyString;
      "            # Project Switch Failed";
      EmptyString;
      "            Could not switch to project '" ++ project_name ++ "': " ++ str_of_exc e;
      EmptyString;
      "            ## Current project: " ++ current_project;
      "            Your session remains on the previous project.";
      EmptyString;
      "            ## Troubleshooting:";
      "            1. **Check available projects**: Use `list_projects()` to see valid project names";
      "            2. **Verify spelling**: Ensure the project name is spelled correctly";
      "            3. **Check permissions**: Verify you have access to the requested project";
      "            4. **Try again**: The error might be temporary";
      EmptyString;
      "            ## Available options:";
      "            - See all projects: `list_projects()`";
      "            - Stay on current project: `get_current_project()`";
      "            - Try different project: `switch_project(" ++ dq ++ "correct-project-name" ++ dq ++ ")`";
      EmptyString;
      "            If the project should exist but isn't listed, send a message to support@basicmachines.co.";
      "            " ].

(** The summary of lines 121-125. *)
Definition switch_summary (actual_project_name : string) (project_info : ProjectInfoResponse.t)
  : string :=
  let stats := ProjectInfoResponse.statistics project_info in
  let result := check_mark ++ " Switched to " ++ actual_project_name ++ " project" ++ nl ++ nl in
  let result := result ++ "Project Summary:" ++ nl in
  let result := result ++ bullet ++ " " ++ str_of_int (total_entities stats) ++ " entities" ++ nl in
  let result := result ++ bullet ++ " " ++ str_of_int (total_observations stats) ++ " observations" ++ nl in
  result ++ bullet ++ " " ++ str_of_int (total_relations stats) ++ " relations" ++ nl.

(** The text of lines 130-131. *)
Definition switch_no_summary (actual_project_name : string) : string :=
  let result := check_mark ++ " Switched to " ++ actual_project_name ++ " project" ++ nl ++ nl in
  result ++ "Project summary unavailable." ++ nl.

(** [switch_project], lines 67-161.  Line 87, which reads [session], stands
    before the [try]; every later read of one of the six names stands inside
    it, or inside an [except] clause.  [current_project] is assigned at line
    87 and again at line 109; the [except] clause of line 135 reads whatever
    it holds then. *)
Definition switch_project (g : Namespace) (project_name : string) (ctx : bool)
  : M World string :=
  when ctx (Context_info ("Switching to project: " ++ project_name)) ;;
  load_global g "session" ;;
  current_project <- session.get_current_project ;;
  with_local current_project
    (try_except
       (response <- lift (call_get "/projects/projects" []) ;;
        project_list <- ProjectList_model_validate response ;;
        match switch_project_lookup project_name (ProjectList.projects project_list) with
        | None =>
            let available_projects := map ProjectItem.name (ProjectList.projects project_list) in
            ret ("Error: Project '" ++ project_name ++ "' not found. Available projects: "
                   ++ join ", " available_projects)
        | Some matching_project =>
            let actual_project_name := ProjectItem.name matching_project in
            load_global g "session" ;;
            lift (session.set_current_project actual_project_name) ;;
            load_global g "session" ;;
            current_project <- lift session.get_current_project ;;
            assign_local current_project ;;
            load_global g "get_project_config" ;;
            project_config <- lift (get_project_config current_project) ;;
            result <-
              try_except
                (response <- lift (call_get (project_url project_config ++ "/project/info")
                                            [("project_name", actual_project_name)]) ;;
                 load_global g "ProjectInfoResponse" ;;
                 project_info <- ProjectInfoResponse_model_validate response ;;
                 ret (switch_summary actual_project_name project_info))
                (fun e =>
                   load_global g "logger" ;;
                   lift (logger.warning ("Could not get project info for " ++ actual_project_name
                                           ++ ": " ++ str_of_exc e)) ;;
                   ret (switch_no_summary actual_project_name)) ;;
            load_global g "add_project_metadata" ;;
            ret (add_project_metadata result actual_project_name)
        end)
       (fun e =>
          load_global g "logger" ;;
          lift (logger.error ("Error switching to project " ++ project_name ++ ": " ++ str_of_exc e)) ;;
          load_global g "session" ;;
          current_project <- read_local ;;
          lift (session.set_current_project current_project) ;;
          load_global g "dedent" ;;
          ret (strip (dedent (switch_failed_text project_name e current_project))))).

(** [get_current_project], lines 164-192. *)
Definition get_current_project (g : Namespace) (ctx : bool) : M World string :=
  when ctx (Context_info "Getting current project information") ;;
  load_global g "session" ;;
  current_project <- session.get_current_project ;;
  load_global g "get_project_config" ;;
  project_config <- get_project_config current_project ;;
  let result := "Current project: " ++ current_project ++ nl ++ nl in
  response <- call_get (project_url project_config ++ "/project/info")
                       [("project_name", current_project)] ;;
  load_global g "ProjectInfoResponse" ;;
  project_info <- ProjectInfoResponse_model_validate (S := World) response ;;
  ret result.

(** [create_memory_project], lines 195-246. *)
Definition create_memory_project (project_name project_path : string) (set_default : bool)
    (context : bool) : M World string :=
  constrained_project <- os_environ_get "BASIC_MEMORY_MCP_PROJECT" ;;
  match truthy constrained_project with
  | Some constrained_project =>
      ret ("# Error" ++ nl ++ nl
             ++ "Project creation disabled - MCP server is constrained to project '"
             ++ constrained_project ++ "'." ++ nl
             ++ "Use the CLI to create projects: `basic-memory project add "
             ++ dq ++ project_name ++ dq ++ " " ++ dq ++ project_path ++ dq ++ "`")
  | None =>
      when context (Context_info ("Creating project: " ++ project_name ++ " at " ++ project_path)) ;;
      let project_request := ProjectInfoRequest.mk project_name project_path set_default in
      response <- call_post "/projects/projects" project_request ;;
      status_response <- ProjectStatusResponse_model_validate response ;;
      let result := check_mark ++ " " ++ ProjectStatusResponse.message status_response ++ nl ++ nl in
      let result :=
        match ProjectStatusResponse.new_project status_response with
        | Some new_project =>
            let result := result ++ "Project Details:" ++ nl in
            let result := result ++ bullet ++ " Name: " ++ ProjectItem.name new_project ++ nl in
            let result := result ++ bullet ++ " Path: " ++ ProjectItem.path new_project ++ nl in
            if set_default then result ++ bullet ++ " Set as default project" ++ nl else result
        | None => result
        end in
      let result := result ++ nl ++ "Project is now available for use in tool calls." ++ nl in
      let result := result ++ "Use '" ++ project_name
                           ++ "' as the project parameter in MCP tool calls." ++ nl in
      ret result
  end.

(** The loop of lines 285-293: the first project whose permalink is the
    permalink of the input, or whose lower-cased name is the lower-cased
    input. *)
Fixpoint delete_project_lookup (project_name project_permalink : string)
    (projects : list ProjectItem.t) : option ProjectItem.t :=
  match projects with
  | [] => None
  | p :: rest =>
      if ProjectItem.permalink p =? project_permalink then Some p
      else if lower (ProjectItem.name p) =? lower project_name then Some p
      else delete_project_lookup project_name project_permalink rest
  end.

(** The text of lines 311-320.  Every [ProjectItem] has a [path], so the
    [hasattr] test of line 316 holds. *)
Definition delete_result (status_response : ProjectStatusResponse.t) : string :=
  let result := check_mark ++ " " ++ ProjectStatusResponse.message status_response ++ nl ++ nl in
  let result :=
    match ProjectStatusResponse.old_project status_response with
    | Some old_project =>
        let result := result ++ "Removed project details:" ++ nl in
        let result := result ++ bullet ++ " Name: " ++ ProjectItem.name old_project ++ nl in
        result ++ bullet ++ " Path: " ++ ProjectItem.path old_project ++ nl
    | None => result
    end in
  let result := result ++ "Files remain on disk but project is no longer tracked by Basic Memory." ++ nl in
  result ++ "Re-add the project to access its content again." ++ nl.

(** [delete_project], lines 249-322.  Line 302 reads [matching_project], the
    name of a local variable of [switch_project]; here the loop assigns
    [target_project], and no import binds [matching_project]: evaluating it
    raises [NameError]. *)
Definition delete_project (project_name : string) (context : bool) : M World string :=
  constrained_project <- os_environ_get "BASIC_MEMORY_MCP_PROJECT" ;;
  match truthy constrained_project with
  | Some constrained_project =>
      ret ("# Error" ++ nl ++ nl
             ++ "Project deletion disabled - MCP server is constrained to project '"
             ++ constrained_project ++ "'." ++ nl
             ++ "Use the CLI to delete projects: `basic-memory project remove "
             ++ dq ++ project_name ++ dq ++ "`")
  | None =>
      when context (Context_info ("Deleting project: " ++ project_name)) ;;
      response <- call_get "/projects/projects" [] ;;
      project_list <- ProjectList_model_validate response ;;
      let project_permalink := generate_permalink project_name in
      match delete_project_lookup project_name project_permalink
              (ProjectList.projects project_list) with
      | None =>
          let available_projects := map ProjectItem.name (ProjectList.projects project_list) in
          raise (ValueError ("Project '" ++ project_name ++ "' not found. Available projects: "
                               ++ join ", " available_projects))
      | Some target_project =>
          matching_project <- unbound_name (A := ProjectItem.t) "matching_project" ;;
          let actual_project_name := ProjectItem.name matching_project in
          let encoded_name := quote (ProjectItem.name target_project) in
          response <- call_delete ("/projects/" ++ encoded_name) ;;
          status_response <- ProjectStatusResponse_model_validate response ;;
          ret (delete_result status_response)
      end
  end.

End Tools.

(** ** A reference library and example worlds

    One implementation of [Library], used to run the handlers on concrete
    inputs.  The byte-wise functions agree with Python on ASCII text. *)

Definition ascii_lower (c : ascii) : ascii :=
  let n := N_of_ascii c in
  if ((65 <=? n) && (n <=? 90))%N then ascii_of_N (n + 32) else c.

Fixpoint ascii_lower_string (s : string) : string :=
  match s with
  | EmptyString => EmptyString
  | String c rest => String (ascii_lower c) (ascii_lower_string rest)
  end.

(** Modelled from the spec: [generate_permalink], which no file under src/
    defines.  A permalink is a normalized slug derived from a project name:
    here the lower-cased name with every blank and underscore turned into a
    dash. *)
Fixpoint slug (s : string) : string :=
  match s with
  | EmptyString => EmptyString
  | String c rest =>
      let n := N_of_ascii c in
      String (if ((n =? 32) || (n =? 95))%N then "-"%char else ascii_lower c) (slug rest)
  end.

Definition is_space (c : ascii) : bool :=
  let n := N_of_ascii c in
  (((9 <=? n) && (n <=? 13)) || ((28 <=? n) && (n <=? 32)))%N.

Fixpoint lstrip (s : string) : string :=
  match s with
  | String c rest => if is_space c then lstrip rest else s
  | EmptyString => EmptyString
  end.

Fixpoint rstrip (s : string) : string :=
  match s with
  | EmptyString => EmptyString
  | String c rest =>
      match rstrip rest with
      | EmptyString => if is_space c then EmptyString else String c EmptyString
      | kept => String c kept
      end
  end.

Fixpoint split_lines_from (line : string) (s : string) : list string :=
  match s with
  | EmptyString => [line]
  | String c rest =>
      if (N_of_ascii c =? 10)%N then line :: split_lines_from EmptyString rest
      else split_lines_from (line ++ String c EmptyString) rest
  end.

Definition is_indent (c : ascii) : bool :=
  let n := N_of_ascii c in ((n =? 32) || (n =? 9))%N.

Fixpoint indent_of (s : string) : string :=
  match s with
  | String c rest => if is_indent c then String c (indent_of rest) else EmptyString
  | EmptyString => EmptyString
  end.

Definition is_blank_line (s : string) : bool := indent_of s =? s.

Fixpoint common_prefix (a b : string) : string :=
  match a, b with
  | String x a', String y b' =>
      if Ascii.eqb x y then String x (common_prefix a' b') else EmptyString
  | _, _ => EmptyString
  end.

Definition margin_of (lines : list string) : option string :=
  fold_left
    (fun margin line =>
       if is_blank_line line then margin
       else match margin with
            | None => Some (indent_of line)
            | Some m => Some (common_prefix m (indent_of line))
            end)
    lines None.

Fixpoint drop (n : nat) (s : string) : string :=
  match n, s with
  | S k, String _ rest => drop k rest
  | _, _ => s
  end.

Definition textwrap_dedent (text : string) : string :=
  let lines := split_lines_from EmptyString text in
  let margin := match margin_of lines with Some m => String.length m | None => 0 end in
  join nl (map (fun line => if is_blank_line line then EmptyString else drop margin line) lines).

Definition reference_library : Library := {|
  lower := ascii_lower_string;
  generate_permalink := slug;
  add_project_metadata := fun result project_name =>
    result ++ nl ++ nl ++ "<!-- Project: " ++ project_name ++ " -->";
  dedent := textwrap_dedent;
  strip := fun s => rstrip (lstrip s) |}.

Definition alpha : ProjectItem.t := ProjectItem.mk "alpha" "/data/alpha" "alpha".
Definition beta : ProjectItem.t := ProjectItem.mk "beta" "/data/beta" "beta".
Definition my_project : ProjectItem.t := ProjectItem.mk "My Project" "/data/my" "my-project".

(** A backend that lists [projects], answers every other GET with the
    statistics [info] (or fails it when there are none), and acknowledges
    creations and deletions. *)
Definition example_backend (projects : list ProjectItem.t) (info : option ProjectStatistics)
  : Request -> PyExc + Json :=
  fun r =>
    match r with
    | GET url _ =>
        if url =? "/projects/projects" then inr (ProjectListJson (ProjectList.mk projects))
        else match info with
             | Some stats => inr (ProjectInfoJson (ProjectInfoResponse.mk stats))
             | None => inl (OtherException "503 Service Unavailable")
             end
    | POST _ json =>
        inr (ProjectStatusJson
               (ProjectStatusResponse.mk "Project added"
                  (Some (ProjectItem.mk (ProjectInfoRequest.name json)
                                        (ProjectInfoRequest.path json)
                                        (slug (ProjectInfoRequest.name json))))
                  None))
    | DELETE _ => inr (ProjectStatusJson (ProjectStatusResponse.mk "Project removed" None None))
    end.

(** A local configuration that knows exactly the projects of [known]. *)
Definition example_configs (known : list string) : string -> PyExc + ProjectConfig :=
  fun project_name =>
    if existsb (String.eqb project_name) known
    then inr (mkConfig ("/" ++ slug project_name))
    else inl (ValueError ("Project '" ++ project_name ++ "' not found")).

Definition example_world (current : string) (pin : option string)
    (known : list string) (projects : list ProjectItem.t) (info : option ProjectStatistics)
  : World :=
  mkWorld current
          (fun key => if key =? "BASIC_MEMORY_MCP_PROJECT" then pin else None)
          (example_configs known)
          (example_backend projects info)
          [] [] [].

Definition some_statistics : ProjectStatistics := mkStatistics 12 34 5.

(** The backend lists [alpha] and [beta], both configured locally; the
    session is on [alpha]. *)
Definition two_projects_world : World :=
  example_world "alpha" None ["alpha"; "beta"] [alpha; beta] (Some some_statistics).

(** The same deployment, constrained to [alpha]. *)
Definition pinned_world : World :=
  example_world "alpha" (Some "alpha") ["alpha"; "beta"] [alpha; beta] (Some some_statistics).



(** The backend lists the project named My Project, of permalink my-project. *)
Definition my_project_world : World :=
  example_world "alpha" None ["alpha"; "My Project"] [alpha; my_project] (Some some_statistics).

(** The backend fails every request. *)
Definition unreachable_world : World :=
  mkWorld "alpha" (fun _ => None) (example_configs ["alpha"])
          (fun _ => inl (OtherException "connection refused")) [] [] [].

(** The backend acknowledges every request with a bare status message. *)
Definition terse_world : World :=
  mkWorld "alpha" (fun _ => None) (example_configs ["alpha"])
          (fun _ => inr (ProjectStatusJson (ProjectStatusResponse.mk "Project added" None None)))
          [] [] [].

(** The variable that pins a deployment is set to the empty string. *)
Definition empty_pin_world : World :=
  example_world "alpha" (Some EmptyString) ["alpha"] [alpha] (Some some_statistics).

(** The backend lists no project. *)
Definition no_projects_world : World :=
  example_world "alpha" None ["alpha"] [] (Some some_statistics).

(** The session is on a project the local configuration does not hold. *)
Definition unconfigured_current_world : World :=
  example_world "alpha" None [] [alpha] (Some some_statistics).

(** ** Specification predicates *)

(** A computation that leaves Session State as it found it, whether it
    returns or raises. *)
Definition keeps_session {A} (m : M World A) : Prop :=
  forall w, session_current_project (snd (m w)) = session_current_project w.

(** The deployment is constrained to the project [pin]. *)
Definition constrained_to (pin : string) (w : World) : Prop :=
  truthy (environ w "BASIC_MEMORY_MCP_PROJECT") = Some pin.

Definition unconstrained (w : World) : Prop :=
  truthy (environ w "BASIC_MEMORY_MCP_PROJECT") = None.


(** The world [w] in another process environment. *)
Definition set_environ (env : string -> option string) (w : World) : World :=
  mkWorld (session_current_project w) env (project_configs w) (backend w)
          (requests w) (log w) (notices w).

(** The name of the environment variable that pins a deployment. *)
Definition pin_variable : string := "BASIC_MEMORY_MCP_PROJECT".

(** Every character of [s] satisfies [ok]. *)
Fixpoint string_forall (ok : ascii -> bool) (s : string) : bool :=
  match s with
  | EmptyString => true
  | String c rest => ok c && string_forall ok rest
  end.

(** A character that may stand in the output of [quote]: an always-safe one
    or the percent sign. *)
Definition url_char (c : ascii) : bool := always_safe c || (N_of_ascii c =? 37)%N.

(** The backend answers the project-list request with [project_list]. *)
Definition lists_projects (w : World) (project_list : ProjectList.t) : Prop :=
  backend w (GET "/projects/projects" []) = inr (ProjectListJson project_list).


(** * Properties *)

(** ** The frame of Session State *)

Lemma keeps_session_ret {A} (a : A) : keeps_session (ret a).
Proof. intros w. reflexivity. Qed.

Lemma keeps_session_raise {A} (e : PyExc) : keeps_session (raise (A := A) e).
Proof. intros w. reflexivity. Qed.

Lemma keeps_session_bind {A B} (m : M World A) (k : A -> M World B) :
  keeps_session m -> (forall a, keeps_session (k a)) -> keeps_session (bind m k).
Proof.
  intros Hm Hk w. unfold bind. specialize (Hm w).
  destruct (m w) as [[a | e] w1]; simpl in *.
  - rewrite Hk. exact Hm.
  - exact Hm.
Qed.

Lemma keeps_session_when (flag : bool) (body : M World unit) :
  keeps_session body -> keeps_session (when flag body).
Proof. intros Hb. destruct flag; [exact Hb | apply keeps_session_ret]. Qed.

Lemma keeps_session_Context_info (msg : string) : keeps_session (Context_info msg).
Proof. intros w. reflexivity. Qed.

Lemma keeps_session_os_environ_get (key : string) : keeps_session (os_environ_get key).
Proof. intros w. reflexivity. Qed.

Lemma keeps_session_call (r : Request) : keeps_session (call r).
Proof. intros w. unfold call. destruct (backend w r); reflexivity. Qed.

Lemma keeps_session_ProjectList (j : Json) :
  keeps_session (ProjectList_model_validate j).
Proof. destruct j; intros w; reflexivity. Qed.

Lemma keeps_session_ProjectStatusResponse (j : Json) :
  keeps_session (ProjectStatusResponse_model_validate j).
Proof. destruct j; intros w; reflexivity. Qed.

Create HintDb frame.
#[export] Hint Resolve keeps_session_ret keeps_session_raise keeps_session_when
  keeps_session_Context_info keeps_session_os_environ_get keeps_session_call
  keeps_session_ProjectList keeps_session_ProjectStatusResponse : frame.

(** Walks a handler body statement by statement. *)
Ltac frame_steps :=
  repeat first
    [ apply keeps_session_bind; [ | intros ? ]
    | match goal with
      | |- keeps_session (match ?x with _ => _ end) => destruct x
      end
    | solve [ unfold call_get, call_post, call_delete, unbound_name; auto with frame ] ].

Section Properties.
Context {Lib : Library}.

Lemma create_memory_project_keeps_session project_name project_path set_default context :
  keeps_session (create_memory_project project_name project_path set_default context).
Proof. unfold create_memory_project. frame_steps. Qed.

Lemma delete_project_keeps_session project_name context :
  keeps_session (delete_project project_name context).
Proof. unfold delete_project. frame_steps. Qed.

(** C10: neither [create_memory_project] nor [delete_project] changes the
    current project of Session State, whatever their arguments, the
    environment and the backend's answers, and whether they return or raise;
    in particular creation does not switch to the new project and deleting the
    current project leaves the pointer on it. *)
Theorem create_and_delete_leave_session_state (w : World) :
  (forall project_name project_path set_default context,
      session_current_project
        (snd (create_memory_project project_name project_path set_default context w))
      = session_current_project w)
  /\ (forall project_name context,
         session_current_project (snd (delete_project project_name context w))
         = session_current_project w)
  /\ (forall context,
         session_current_project
           (snd (delete_project (session_current_project w) context w))
         = session_current_project w).
Proof.
  repeat split; intros.
  - apply create_memory_project_keeps_session.
  - apply delete_project_keeps_session.
  - apply delete_project_keeps_session.
Qed.

(** ** Resolution *)

(** X11: a name that the loop of [delete_project] does not resolve is not
    resolved by the loop of [switch_project] either: every name that
    [switch_project] accepts, [delete_project] accepts. *)
Lemma switch_project_lookup_none (project_name project_permalink : string)
    (projects : list ProjectItem.t) :
  delete_project_lookup project_name project_permalink projects = None ->
  switch_project_lookup project_name projects = None.
Proof.
  induction projects as [| p rest IH]; simpl; intros H; [reflexivity |].
  destruct (ProjectItem.permalink p =? project_permalink); [discriminate |].
  destruct (lower (ProjectItem.name p) =? lower project_name); [discriminate |].
  apply IH, H.
Qed.

(** The loop of [delete_project] resolves a name as soon as one listed project
    has the lower-cased name or the derived permalink of the input, and what
    it returns is such a project of the list. *)
Lemma delete_project_lookup_resolves (project_name : string) (projects : list ProjectItem.t)
    (p : ProjectItem.t) :
  In p projects ->
  lower (ProjectItem.name p) = lower project_name
  \/ ProjectItem.permalink p = generate_permalink project_name ->
  exists q,
    delete_project_lookup project_name (generate_permalink project_name) projects = Some q
    /\ In q projects
    /\ (lower (ProjectItem.name q) = lower project_name
        \/ ProjectItem.permalink q = generate_permalink project_name).
Proof.
  induction projects as [| x rest IH]; simpl; intros Hin Hmatch; [contradiction |].
  destruct (ProjectItem.permalink x =? generate_permalink project_name) eqn:Eperm.
  - exists x. apply String.eqb_eq in Eperm. auto.
  - destruct (lower (ProjectItem.name x) =? lower project_name) eqn:Ename.
    + exists x. apply String.eqb_eq in Ename. auto.
    + destruct Hin as [-> | Hin].
      * destruct Hmatch as [Hn | Hp].
        -- apply String.eqb_eq in Hn. congruence.
        -- apply String.eqb_eq in Hp. congruence.
      * destruct (IH Hin Hmatch) as [q [Hq [Hq_in Hq_match]]].
        exists q. auto.
Qed.

(** ** Constrained deployments *)

(** C8: in a deployment constrained to [pin], [create_memory_project] returns
    the disabled-operation message at once, for every name, path,
    [set_default] and context: the world is the one it found, so no request
    was issued. *)
Theorem create_memory_project_disabled_when_constrained
    (project_name project_path : string) (set_default context : bool)
    (w : World) (pin : string) :
  constrained_to pin w ->
  create_memory_project project_name project_path set_default context w
  = (Returned ("# Error" ++ nl ++ nl
                 ++ "Project creation disabled - MCP server is constrained to project '"
                 ++ pin ++ "'." ++ nl
                 ++ "Use the CLI to create projects: `basic-memory project add "
                 ++ dq ++ project_name ++ dq ++ " " ++ dq ++ project_path ++ dq ++ "`"),
     w)
  /\ requests (snd (create_memory_project project_name project_path set_default context w))
     = requests w.
Proof.
  intros Hpin. unfold constrained_to in Hpin.
  assert (E : create_memory_project project_name project_path set_default context w
              = (Returned ("# Error" ++ nl ++ nl
                 ++ "Project creation disabled - MCP server is constrained to project '"
                 ++ pin ++ "'." ++ nl
                 ++ "Use the CLI to create projects: `basic-memory project add "
                 ++ dq ++ project_name ++ dq ++ " " ++ dq ++ project_path ++ dq ++ "`"), w)).
  { unfold create_memory_project, bind, os_environ_get. rewrite Hpin. reflexivity. }
  split; [exact E | rewrite E; reflexivity].
Qed.

(** ** Names that do not resolve *)

(** C7: in an unconstrained deployment whose backend lists [project_list], a
    name that the loop of [delete_project] does not resolve makes
    [delete_project] raise [ValueError] with the available names, joined by
    commas: the caller gets an exception, not a result text.  Only the list
    request was issued and Session State is as before. *)
Theorem delete_project_not_found_raises
    (project_name : string) (context : bool) (w : World) (project_list : ProjectList.t) :
  unconstrained w ->
  lists_projects w project_list ->
  delete_project_lookup project_name (generate_permalink project_name)
    (ProjectList.projects project_list) = None ->
  exists w',
    delete_project project_name context w
    = (Raised (ValueError ("Project '" ++ project_name ++ "' not found. Available projects: "
                             ++ join ", " (map ProjectItem.name
                                             (ProjectList.projects project_list)))),
       w')
    /\ requests w' = (requests w ++ [GET "/projects/projects" []])%list
    /\ session_current_project w' = session_current_project w.
Proof.
  intros Hpin Hlist Hnone. unfold unconstrained in Hpin. unfold lists_projects in Hlist.
  unfold delete_project, bind, os_environ_get. rewrite Hpin.
  unfold when, Context_info, ret, call_get, call.
  destruct context; cbn [backend add_notice];
    rewrite Hlist; cbn [ProjectList_model_validate ret]; rewrite Hnone;
    eexists; repeat split.
Qed.

(** Reads a field of an updated world. *)
Ltac world_simpl :=
  cbn [fst snd set_session add_request add_notice add_log session_current_project environ
       project_configs backend requests log notices].

(** ** Names that resolve in [delete_project] *)

(** C3: in an unconstrained deployment whose backend lists [project_list], a
    name that the loop of [delete_project] resolves makes [delete_project]
    raise [NameError] for [matching_project] at line 302: the list request is
    the only request issued, no delete request follows and no status text is
    rendered. *)
Theorem delete_project_resolved_raises_NameError
    (project_name : string) (context : bool) (w : World) (project_list : ProjectList.t)
    (target_project : ProjectItem.t) :
  unconstrained w ->
  lists_projects w project_list ->
  delete_project_lookup project_name (generate_permalink project_name)
    (ProjectList.projects project_list) = Some target_project ->
  exists w',
    delete_project project_name context w = (Raised (NameError "matching_project"), w')
    /\ requests w' = (requests w ++ [GET "/projects/projects" []])%list.
Proof.
  intros Hpin Hlist Hsome. unfold unconstrained in Hpin. unfold lists_projects in Hlist.
  unfold delete_project, bind, os_environ_get. rewrite Hpin.
  unfold when, Context_info, ret, call_get, call.
  destruct context; world_simpl; rewrite Hlist; cbn [ProjectList_model_validate ret];
    rewrite Hsome; eexists; split; reflexivity.
Qed.

(** X17: whatever the deployment, the backend and the name,
    [delete_project] issues no request or the list request alone: no delete
    request ever leaves it. *)
Lemma delete_project_requests (project_name : string) (context : bool) (w : World) :
  requests (snd (delete_project project_name context w)) = requests w
  \/ requests (snd (delete_project project_name context w))
     = (requests w ++ [GET "/projects/projects" []])%list.
Proof.
  unfold delete_project, bind, os_environ_get.
  destruct (truthy (environ w "BASIC_MEMORY_MCP_PROJECT")) as [pin |]; [left; reflexivity |].
  right. unfold when, Context_info, ret, call_get, call.
  destruct context; world_simpl;
    destruct (backend w (GET "/projects/projects" [])) as [e | []]; try reflexivity;
    cbn [ProjectList_model_validate ret];
    destruct (delete_project_lookup _ _ _); reflexivity.
Qed.

(** ** Constrained and unconstrained deployments, continued *)

(** X1: in a deployment constrained to [pin], [delete_project] returns the
    disabled-operation message for every name, resolvable or not, and leaves
    the world as it found it: no request is issued and nothing is raised. *)
Theorem delete_project_disabled_when_constrained
    (project_name : string) (context : bool) (w : World) (pin : string) :
  constrained_to pin w ->
  delete_project project_name context w
  = (Returned ("# Error" ++ nl ++ nl
                 ++ "Project deletion disabled - MCP server is constrained to project '"
                 ++ pin ++ "'." ++ nl
                 ++ "Use the CLI to delete projects: `basic-memory project remove "
                 ++ dq ++ project_name ++ dq ++ "`"),
     w).
Proof.
  intros Hpin. unfold constrained_to in Hpin.
  unfold delete_project, bind, os_environ_get. rewrite Hpin. reflexivity.
Qed.

(** X2: when the pinning variable is unset, or set to the empty string,
    [create_memory_project] issues exactly one request, whatever the backend
    answers: the POST to /projects/projects whose body holds the name, the
    path and [set_default] as the caller gave them. *)
Theorem create_memory_project_posts_once
    (project_name project_path : string) (set_default context : bool) (w : World) :
  environ w pin_variable = None \/ environ w pin_variable = Some EmptyString ->
  requests (snd (create_memory_project project_name project_path set_default context w))
  = (requests w
       ++ [POST "/projects/projects"
                (ProjectInfoRequest.mk project_name project_path set_default)])%list.
Proof.
  intros Hpin. unfold pin_variable in Hpin.
  unfold create_memory_project, bind, os_environ_get, when, Context_info, ret, call_post, call.
  assert (E : truthy (environ w "BASIC_MEMORY_MCP_PROJECT") = None)
    by (destruct Hpin as [-> | ->]; reflexivity).
  rewrite E.
  destruct context; world_simpl;
    destruct (backend w _) as [e | []]; reflexivity.
Qed.

(** X3: in an unconstrained deployment, a creation request that the backend
    fails with [e] makes [create_memory_project] raise [e]: the failure is not
    turned into a text. *)
Theorem create_memory_project_propagates_failure
    (project_name project_path : string) (set_default context : bool) (w : World) (e : PyExc) :
  unconstrained w ->
  backend w (POST "/projects/projects"
                  (ProjectInfoRequest.mk project_name project_path set_default)) = inl e ->
  fst (create_memory_project project_name project_path set_default context w) = Raised e.
Proof.
  intros Hpin Hfail. unfold unconstrained in Hpin.
  unfold create_memory_project, bind, os_environ_get, when, Context_info, ret, call_post, call.
  rewrite Hpin. destruct context; world_simpl; rewrite Hfail; reflexivity.
Qed.

(** X4: when the backend's status response carries no [new_project],
    [create_memory_project] returns the status message and the two closing
    lines only: no project details, and no set-as-default line even when
    [set_default] is true. *)
Theorem create_memory_project_without_details
    (project_name project_path : string) (set_default context : bool) (w : World)
    (status_response : ProjectStatusResponse.t) :
  unconstrained w ->
  backend w (POST "/projects/projects"
                  (ProjectInfoRequest.mk project_name project_path set_default))
  = inr (ProjectStatusJson status_response) ->
  ProjectStatusResponse.new_project status_response = None ->
  fst (create_memory_project project_name project_path set_default context w)
  = Returned (((check_mark ++ " " ++ ProjectStatusResponse.message status_response ++ nl ++ nl)
                 ++ nl ++ "Project is now available for use in tool calls." ++ nl)
                ++ "Use '" ++ project_name ++ "' as the project parameter in MCP tool calls." ++ nl).
Proof.
  intros Hpin Hok Hnone. unfold unconstrained in Hpin.
  unfold create_memory_project, bind, os_environ_get, when, Context_info, ret, call_post, call.
  rewrite Hpin. destruct context; world_simpl; rewrite Hok;
    cbn [ProjectStatusResponse_model_validate ret]; rewrite Hnone; reflexivity.
Qed.

(** ** Resolution, continued *)

(** X9: when the listed names are pairwise distinct after lower-casing, the
    loop of [switch_project] returns exactly the listed project whose
    lower-cased name is the lower-cased input. *)
Theorem switch_project_lookup_unique
    (project_name : string) (projects : list ProjectItem.t) (p : ProjectItem.t) :
  NoDup (map (fun q => lower (ProjectItem.name q)) projects) ->
  In p projects ->
  lower (ProjectItem.name p) = lower project_name ->
  switch_project_lookup project_name projects = Some p.
Proof.
  induction projects as [| x rest IH]; simpl; intros Hnodup Hin Hname; [contradiction |].
  inversion Hnodup as [| ? ? Hfresh Hrest]; subst.
  destruct (lower (ProjectItem.name x) =? lower project_name) eqn:Ex.
  - destruct Hin as [-> | Hin]; [reflexivity |].
    apply String.eqb_eq in Ex. exfalso. apply Hfresh.
    rewrite Ex, <- Hname.
    apply (in_map (fun q => lower (ProjectItem.name q))), Hin.
  - destruct Hin as [-> | Hin].
    + apply String.eqb_neq in Ex. contradiction.
    + apply IH; assumption.
Qed.

(** X10: the loop of [delete_project] resolves nothing exactly when no listed
    project has the permalink derived from the input and none has the
    lower-cased name of the input. *)
Theorem delete_project_lookup_none_iff
    (project_name : string) (projects : list ProjectItem.t) :
  delete_project_lookup project_name (generate_permalink project_name) projects = None
  <-> (forall p, In p projects ->
                 ProjectItem.permalink p <> generate_permalink project_name
                 /\ lower (ProjectItem.name p) <> lower project_name).
Proof.
  induction projects as [| x rest IH]; simpl.
  - split; [intros _ p [] | reflexivity].
  - destruct (ProjectItem.permalink x =? generate_permalink project_name) eqn:Eperm.
    + split; [discriminate |]. intros H. apply String.eqb_eq in Eperm.
      destruct (H x (or_introl eq_refl)) as [Hp _]. contradiction.
    + destruct (lower (ProjectItem.name x) =? lower project_name) eqn:Ename.
      * split; [discriminate |]. intros H. apply String.eqb_eq in Ename.
        destruct (H x (or_introl eq_refl)) as [_ Hn]. contradiction.
      * apply String.eqb_neq in Eperm, Ename. rewrite IH. split.
        -- intros H p [<- | Hin]; [split; assumption | apply H, Hin].
        -- intros H p Hin. apply H. right. exact Hin.
Qed.

(** ** The frame of Session State, continued *)

Lemma keeps_session_session_get : keeps_session session.get_current_project.
Proof. intros w. reflexivity. Qed.

Lemma keeps_session_get_project_config (project_name : string) :
  keeps_session (get_project_config project_name).
Proof. intros w. unfold get_project_config. destruct (project_configs w _); reflexivity. Qed.

Lemma keeps_session_ProjectInfoResponse (j : Json) :
  keeps_session (ProjectInfoResponse_model_validate j).
Proof. destruct j; intros w; reflexivity. Qed.

(** ** The encoded name of the delete request *)

Lemma hex_digit_safe (c : ascii) :
  always_safe (hex_digit (N_of_ascii c / 16)) = true
  /\ always_safe (hex_digit (N_of_ascii c mod 16)) = true.
Proof. destruct c as [[] [] [] [] [] [] [] []]; vm_compute; split; reflexivity. Qed.

Lemma hex_digit_injective (x y : N) :
  (x < 16)%N -> (y < 16)%N -> hex_digit x = hex_digit y -> x = y.
Proof.
  unfold hex_digit. intros Hx Hy H.
  apply (f_equal N_of_ascii) in H.
  rewrite !N_ascii_embedding in H.
  - destruct (N.ltb_spec x 10), (N.ltb_spec y 10); lia.
  - destruct (N.ltb_spec y 10); lia.
  - destruct (N.ltb_spec x 10); lia.
Qed.

Lemma hex_pair_injective (a b : ascii) :
  hex_digit (N_of_ascii a / 16) = hex_digit (N_of_ascii b / 16) ->
  hex_digit (N_of_ascii a mod 16) = hex_digit (N_of_ascii b mod 16) ->
  a = b.
Proof.
  intros Hhigh Hlow.
  pose proof (N_ascii_bounded a) as Ba. pose proof (N_ascii_bounded b) as Bb.
  apply hex_digit_injective in Hhigh;
    [ | apply N.Div0.div_lt_upper_bound; lia | apply N.Div0.div_lt_upper_bound; lia ].
  apply hex_digit_injective in Hlow; [ | apply N.mod_lt; lia | apply N.mod_lt; lia ].
  rewrite <- (ascii_N_embedding a), <- (ascii_N_embedding b). f_equal.
  rewrite (N.div_mod (N_of_ascii a) 16), (N.div_mod (N_of_ascii b) 16) by lia.
  rewrite Hhigh, Hlow. reflexivity.
Qed.

(** X18: the name [quote] encodes for the delete path holds letters, digits,
    the marks [_.-~] and percent signs only: no slash, blank, question mark
    or hash of a project name reaches the path. *)
Theorem quote_output_is_url_safe (s : string) : string_forall url_char (quote s) = true.
Proof.
  induction s as [| c rest IH]; [reflexivity |].
  simpl. destruct (always_safe c) eqn:Ec.
  - simpl. unfold url_char at 1. rewrite Ec. exact IH.
  - destruct (hex_digit_safe c) as [Hhigh Hlow].
    cbn [string_forall]. unfold url_char at 2 3. rewrite Hhigh, Hlow. exact IH.
Qed.

(** X19: [quote] is injective: two project names with the same encoding are
    the same name, so distinct names give distinct delete paths. *)
Theorem quote_injective (s1 s2 : string) : quote s1 = quote s2 -> s1 = s2.
Proof.
  revert s2. induction s1 as [| a r1 IH]; intros [| b r2]; simpl.
  - reflexivity.
  - destruct (always_safe b); discriminate.
  - destruct (always_safe a); discriminate.
  - destruct (always_safe a) eqn:Ea, (always_safe b) eqn:Eb; intros H.
    + injection H as -> Hrest. f_equal. apply IH, Hrest.
    + injection H as -> _. discriminate Ea.
    + injection H as <- _. discriminate Eb.
    + injection H as Hhigh Hlow Hrest.
      rewrite (hex_pair_injective a b Hhigh Hlow). f_equal. apply IH, Hrest.
Qed.

(** ** The handlers in the namespace of the module *)

(** Unfolds the body of [switch_project] down to the answers of the world. *)
Ltac run_switch :=
  unfold switch_project, load_global, bind, with_local, try_except, lift, when, Context_info,
    ret, raise, assign_local, read_local, session.get_current_project,
    session.set_current_project, get_project_config, call_get, call.



(** As shipped, line 87 raises before anything else: the only trace of the
    call is the notice of line 85 when a context was passed. *)
Lemma switch_project_shipped (project_name : string) (ctx : bool) (w : World) :
  switch_project shipped project_name ctx w
  = (Raised (NameError "session"),
     if ctx then add_notice ("Switching to project: " ++ project_name) w else w).
Proof. destruct ctx; reflexivity. Qed.

(** As shipped, line 180 raises before anything else. *)
Lemma get_current_project_shipped (ctx : bool) (w : World) :
  get_current_project shipped ctx w
  = (Raised (NameError "session"),
     if ctx then add_notice "Getting current project information" w else w).
Proof. destruct ctx; reflexivity. Qed.



(** C6: as shipped, [switch_project] returns no error text for a name that
    does not resolve, nor for any other: it raises [NameError] for [session]
    at line 87, before the project list is fetched.  Session State is as
    before, and [get_current_project], called next, raises the same error at
    line 180 instead of reporting the project. *)
Theorem switch_project_returns_no_error_text
    (project_name : string) (ctx ctx' : bool) (w : World) :
  exists w',
    switch_project shipped project_name ctx w = (Raised (NameError "session"), w')
    /\ requests w' = requests w
    /\ session_current_project w' = session_current_project w
    /\ fst (get_current_project shipped ctx' w') = Raised (NameError "session").
Proof.
  rewrite switch_project_shipped. eexists. split; [reflexivity |].
  rewrite get_current_project_shipped. destruct ctx; repeat split.
Qed.

(** C9: as shipped, [switch_project] reports no success, whatever the backend
    answers to the statistics request: no call returns a text, Session State
    is never set to the new project, and no warning is logged. *)
Theorem switch_project_reports_no_success (project_name : string) (ctx : bool) (w : World) :
  (forall text, fst (switch_project shipped project_name ctx w) <> Returned text)
  /\ session_current_project (snd (switch_project shipped project_name ctx w))
     = session_current_project w
  /\ requests (snd (switch_project shipped project_name ctx w)) = requests w
  /\ log (snd (switch_project shipped project_name ctx w)) = log w.
Proof.
  rewrite switch_project_shipped. repeat split; try (destruct ctx; reflexivity).
  intros text H. discriminate H.
Qed.

(** C4: as shipped, [get_current_project] raises [NameError] for [session] at
    line 180: no statistics request is issued and no text, with or without a
    summary, is returned.  Session State is not changed. *)
Theorem get_current_project_raises_NameError (ctx : bool) (w : World) :
  exists w',
    get_current_project shipped ctx w = (Raised (NameError "session"), w')
    /\ requests w' = requests w
    /\ session_current_project w' = session_current_project w.
Proof.
  rewrite get_current_project_shipped. eexists. split; [reflexivity |].
  destruct ctx; split; reflexivity.
Qed.

(** C5: as shipped, whenever the backend answers the list request, in a
    deployment constrained to one project as in an unconstrained one,
    [list_memory_projects] raises [NameError] for [add_project_metadata] at
    line 64 after the request: the text built for the pinned project, or the
    bullet lines, is never returned. *)
Theorem list_memory_projects_raises_NameError
    (context : bool) (w : World) (project_list : ProjectList.t) :
  lists_projects w project_list ->
  exists w',
    list_memory_projects shipped context w = (Raised (NameError "add_project_metadata"), w')
    /\ requests w' = (requests w ++ [GET "/projects/projects" []])%list.
Proof.
  intros Hlist. unfold lists_projects in Hlist.
  unfold list_memory_projects, load_global, bind, when, Context_info, ret, os_environ_get,
    call_get, call, unbound_name, raise.
  destruct context; world_simpl; rewrite Hlist; cbn [ProjectList_model_validate ret];
    eexists; split; reflexivity.
Qed.

(** X12: in every namespace and every deployment, constrained or not,
    [list_memory_projects] issues the list request, exactly once, and raises:
    the failure of the backend when the request fails; when the answer is a
    project list, [NameError] for [add_project_metadata], or for [current]
    where the namespace binds [add_project_metadata]. *)
Theorem list_memory_projects_outcome (g : Namespace) (context : bool) (w : World) :
  (exists e, fst (list_memory_projects g context w) = Raised e)
  /\ (forall e, backend w (GET "/projects/projects" []) = inl e ->
                fst (list_memory_projects g context w) = Raised e)
  /\ (forall project_list,
        lists_projects w project_list ->
        fst (list_memory_projects g context w)
        = Raised (NameError (if g "add_project_metadata"
                             then "current" else "add_project_metadata")))
  /\ requests (snd (list_memory_projects g context w))
     = (requests w ++ [GET "/projects/projects" []])%list.
Proof.
  unfold lists_projects, list_memory_projects, load_global, bind, when, Context_info, ret,
    os_environ_get, call_get, call, unbound_name, raise.
  destruct (g "add_project_metadata").
  all: destruct context; world_simpl.
  all: destruct (backend w (GET "/projects/projects" [])) as [e | []];
    cbn [ProjectList_model_validate ret raise fst snd].
  all: repeat split; try (eexists; reflexivity); intros; try discriminate; try reflexivity.
  all: congruence.
Qed.

Lemma keeps_session_load_global (g : Namespace) (name : string) :
  keeps_session (load_global g name).
Proof. intros w. unfold load_global. destruct (g name); reflexivity. Qed.

(** X13: in every namespace, [get_current_project] and
    [list_memory_projects] leave Session State as they found it on every
    path, returning or raising. *)
Theorem read_handlers_keep_session (g : Namespace) (w : World) :
  (forall ctx, session_current_project (snd (get_current_project g ctx w))
               = session_current_project w)
  /\ (forall context, session_current_project (snd (list_memory_projects g context w))
                      = session_current_project w).
Proof.
  split; intros flag.
  - revert w. change (keeps_session (get_current_project g flag)).
    unfold get_current_project.
    repeat first
      [ apply keeps_session_bind; [ | intros ? ]
      | apply keeps_session_session_get
      | apply keeps_session_get_project_config
      | apply keeps_session_ProjectInfoResponse
      | apply keeps_session_load_global
      | solve [ unfold call_get; auto with frame ] ].
  - revert w. change (keeps_session (list_memory_projects g flag)).
    unfold list_memory_projects.
    repeat first
      [ apply keeps_session_bind; [ | intros ? ]
      | apply keeps_session_load_global
      | match goal with
        | |- keeps_session (match ?x with _ => _ end) => destruct x
        end
      | solve [ unfold call_get, unbound_name; auto with frame ] ].
Qed.

(** X8: in every namespace, [switch_project] does not read the process
    environment: in any other environment, and so in a deployment pinned to
    one project, it has the same outcome and makes the same changes to the
    world. *)
Theorem switch_project_ignores_pin
    (g : Namespace) (project_name : string) (ctx : bool) (w : World)
    (env : string -> option string) :
  switch_project g project_name ctx (set_environ env w)
  = (fst (switch_project g project_name ctx w),
     set_environ env (snd (switch_project g project_name ctx w))).
Proof.
  run_switch. unfold set_environ.
  destruct (g "session"); [| destruct ctx; reflexivity].
  destruct (g "logger"), (g "dedent").
  all: destruct ctx; world_simpl.
  all: destruct (backend w (GET "/projects/projects" [])) as [e | [project_list | | |]];
    cbn [ProjectList_model_validate ret raise fst snd logger.error]; world_simpl;
    try reflexivity.
  all: destruct (switch_project_lookup project_name (ProjectList.projects project_list))
    as [p |]; world_simpl; try reflexivity.
  all: destruct (g "get_project_config");
    cbn [ret raise fst snd logger.error]; world_simpl; try reflexivity.
  all: destruct (project_configs w (ProjectItem.name p)) as [e | c];
    cbn [ret raise fst snd logger.error]; world_simpl; try reflexivity.
  all: destruct (backend w (GET (project_url c ++ "/project/info") _)) as [e | j];
    destruct (g "ProjectInfoResponse"), (g "add_project_metadata");
    try destruct j;
    cbn [ProjectInfoResponse_model_validate ret raise fst snd logger.warning logger.error];
    world_simpl; reflexivity.
Qed.

(** ** The lines behind the lookups

    What the handlers do in a namespace that binds the names they read.  The
    module as shipped binds none of them; each statement names the bindings
    it needs. *)









(** X16: against a backend that lists no project, every name is unknown to
    [delete_project]: in an unconstrained deployment it raises [ValueError]
    with an empty enumeration of the available names. *)
Theorem delete_project_on_empty_list (project_name : string) (context : bool) (w : World) :
  unconstrained w ->
  lists_projects w (ProjectList.mk []) ->
  fst (delete_project project_name context w)
  = Raised (ValueError ("Project '" ++ project_name ++ "' not found. Available projects: ")).
Proof.
  intros Hpin Hlist. unfold unconstrained in Hpin. unfold lists_projects in Hlist.
  unfold delete_project, bind, os_environ_get. rewrite Hpin.
  unfold when, Context_info, ret, call_get, call.
  destruct context; world_simpl; rewrite Hlist; reflexivity.
Qed.

End Properties.

(** * The properties on concrete worlds *)

#[local] Existing Instance reference_library.

Lemma delete_project_resolved_raises_NameError_witness :
  exists w',
    delete_project "beta" false two_projects_world = (Raised (NameError "matching_project"), w')
    /\ requests w' = [GET "/projects/projects" []].
Proof.
  apply (delete_project_resolved_raises_NameError
           "beta" false two_projects_world (ProjectList.mk [alpha; beta]) beta); reflexivity.
Defined.

Lemma delete_project_not_found_raises_witness :
  exists w',
    delete_project "missing-project" false two_projects_world
    = (Raised (ValueError "Project 'missing-project' not found. Available projects: alpha, beta"),
       w')
    /\ requests w' = [GET "/projects/projects" []]
    /\ session_current_project w' = "alpha".
Proof.
  apply (delete_project_not_found_raises
           "missing-project" false two_projects_world (ProjectList.mk [alpha; beta]));
    reflexivity.
Defined.

Lemma create_memory_project_disabled_when_constrained_witness :
  create_memory_project "beta" "/tmp/beta" false false pinned_world
  = (Returned ("# Error" ++ nl ++ nl
                 ++ "Project creation disabled - MCP server is constrained to project 'alpha'."
                 ++ nl
                 ++ "Use the CLI to create projects: `basic-memory project add "
                 ++ dq ++ "beta" ++ dq ++ " " ++ dq ++ "/tmp/beta" ++ dq ++ "`"),
     pinned_world)
  /\ requests (snd (create_memory_project "beta" "/tmp/beta" false false pinned_world)) = [].
Proof.
  apply (create_memory_project_disabled_when_constrained
           "beta" "/tmp/beta" false false pinned_world "alpha"); reflexivity.
Defined.

(** ** Witnesses of the further properties *)

Lemma delete_project_disabled_when_constrained_witness :
  delete_project "missing-project" true pinned_world
  = (Returned ("# Error" ++ nl ++ nl
                 ++ "Project deletion disabled - MCP server is constrained to project 'alpha'."
                 ++ nl
                 ++ "Use the CLI to delete projects: `basic-memory project remove "
                 ++ dq ++ "missing-project" ++ dq ++ "`"),
     pinned_world).
Proof.
  apply (delete_project_disabled_when_constrained "missing-project" true pinned_world "alpha");
    reflexivity.
Defined.

Lemma create_memory_project_posts_once_witness :
  requests (snd (create_memory_project "beta" "/tmp/beta" true false empty_pin_world))
  = [POST "/projects/projects" (ProjectInfoRequest.mk "beta" "/tmp/beta" true)].
Proof.
  apply (create_memory_project_posts_once "beta" "/tmp/beta" true false empty_pin_world).
  right. reflexivity.
Defined.

Lemma create_memory_project_propagates_failure_witness :
  fst (create_memory_project "beta" "/tmp/beta" false false unreachable_world)
  = Raised (OtherException "connection refused").
Proof.
  apply (create_memory_project_propagates_failure
           "beta" "/tmp/beta" false false unreachable_world); reflexivity.
Defined.

Lemma create_memory_project_without_details_witness :
  fst (create_memory_project "beta" "/tmp/beta" true false terse_world)
  = Returned (((check_mark ++ " Project added" ++ nl ++ nl)
                 ++ nl ++ "Project is now available for use in tool calls." ++ nl)
                ++ "Use 'beta' as the project parameter in MCP tool calls." ++ nl).
Proof.
  apply (create_memory_project_without_details
           "beta" "/tmp/beta" true false terse_world
           (ProjectStatusResponse.mk "Project added" None None)); reflexivity.
Defined.

Lemma switch_project_lookup_unique_witness :
  switch_project_lookup "My PROJECT" [alpha; my_project] = Some my_project.
Proof.
  apply (switch_project_lookup_unique "My PROJECT" [alpha; my_project] my_project).
  - repeat constructor; simpl; intuition discriminate.
  - simpl. auto.
  - reflexivity.
Defined.

Lemma switch_project_lookup_none_witness :
  switch_project_lookup "missing-project" [alpha; my_project] = None.
Proof.
  apply (switch_project_lookup_none "missing-project" (generate_permalink "missing-project")
           [alpha; my_project]); reflexivity.
Defined.

Lemma quote_injective_witness : "My Project/1" = "My Project/1".
Proof. apply (quote_injective "My Project/1" "My Project/1"). reflexivity. Defined.

(** ** The handlers on concrete worlds *)

(** C2: the loop of [switch_project] compares lower-cased names only.  For
    the project named My Project, whose permalink my-project is the permalink
    derived from the input my-project, the loop of [delete_project] resolves
    the input and the loop of [switch_project] does not. *)
Theorem switch_project_lookup_ignores_permalink :
  ProjectItem.permalink my_project = generate_permalink "my-project"
  /\ delete_project_lookup "my-project" (generate_permalink "my-project") [alpha; my_project]
     = Some my_project
  /\ switch_project_lookup "my-project" [alpha; my_project] = None.
Proof. repeat split; vm_compute; reflexivity. Qed.

Lemma list_memory_projects_raises_NameError_witness :
  constrained_to "alpha" pinned_world
  /\ exists w',
       list_memory_projects shipped false pinned_world
       = (Raised (NameError "add_project_metadata"), w')
       /\ requests w' = [GET "/projects/projects" []].
Proof.
  split; [reflexivity |].
  apply (list_memory_projects_raises_NameError
           false pinned_world (ProjectList.mk [alpha; beta])); reflexivity.
Defined.








Lemma delete_project_on_empty_list_witness :
  fst (delete_project "alpha" false no_projects_world)
  = Raised (ValueError "Project 'alpha' not found. Available projects: ").
Proof.
  apply (delete_project_on_empty_list "alpha" false no_projects_world); reflexivity.
Defined.
